(** * A framework-agnostic controller behind Express and Fastify adapters

    Shallow embedding of
    - [src/common/interfaces]            (HttpRequest, HttpResponse),
    - [src/common/controller]            (CommonController.handle),
    - [src/app/express]  (expressRouteAdapter and the app set-up),
    - [src/app/fastify]  (fastifyRouteAdapter and the app set-up),
    followed by the properties of the controller, of the two adapters and
    of the header middleware.

    JavaScript values are an inductive type, exceptions are an error
    result, and the two observable effects of the program ([console.log]
    and the calls made on the reply object) are threaded as explicit
    state. *)

From Stdlib Require Import ZArith String List Bool Lia DecimalString.
From stdpp Require Import base option gmap strings.
Import ListNotations.

Set Warnings "-register-all".

Local Open Scope Z_scope.
Local Open Scope string_scope.

(* ===================================================================== *)
(** ** JavaScript values *)
(* ===================================================================== *)

(** The values a parsed JSON payload can hold, plus [undefined].  An
    object keeps its properties in insertion order; a key occurs at most
    once in a parsed object and [prop_lookup] returns the first match.
    [JNum n] is the integer-valued number [n]. *)
Inductive JsValue : Type :=
| JUndefined
| JNull
| JBool (b : bool)
| JNum (n : Z)
| JStr (s : string)
| JArr (elems : list JsValue)
| JObj (props : list (string * JsValue)).

(** What a [throw] (or a rejected promise) carries. *)
Inductive JsError : Type :=
| TypeError (msg : string)
| Thrown (v : JsValue).

Inductive Result (A : Type) : Type :=
| Ok (a : A)
| Throw (e : JsError).
Arguments Ok {A} a.
Arguments Throw {A} e.

Definition is_ok {A} (r : Result A) : bool :=
  match r with Ok _ => true | Throw _ => false end.

Fixpoint prop_lookup (key : string) (props : list (string * JsValue))
  : option JsValue :=
  match props with
  | [] => None
  | (k, v) :: rest => if String.eqb k key then Some v else prop_lookup key rest
  end.

(** [ToBoolean] of ECMAScript: the falsy values are [undefined], [null],
    [false], [0] and the empty string; objects and arrays are truthy. *)
Definition ToBoolean (v : JsValue) : bool :=
  match v with
  | JUndefined | JNull => false
  | JBool b => b
  | JNum n => negb (Z.eqb n 0)
  | JStr s => negb (String.eqb s "")
  | JArr _ | JObj _ => true
  end.

(** Decimal rendering of an integer-valued number (exact for magnitudes
    below 10^21, where JavaScript switches to exponent notation). *)
Definition NumberToString (n : Z) : string :=
  NilZero.string_of_int (Z.to_int n).

(** [Array.prototype.join] with separator [","], over elements already
    converted. *)
Fixpoint join_comma (parts : list string) : string :=
  match parts with
  | [] => ""
  | [p] => p
  | p :: rest => p +:+ "," +:+ join_comma rest
  end.

(** [ToString] as a template literal applies it.  A plain object has no
    callable [toString] of its own: it prints through
    [Object.prototype.toString] unless an own data property [toString]
    shadows it, in which case neither [toString] nor [valueOf] yields a
    primitive and the conversion throws.  An array prints through [join],
    where [undefined] and [null] elements print as the empty string. *)
Fixpoint ToString (v : JsValue) : Result string :=
  match v with
  | JUndefined => Ok "undefined"
  | JNull => Ok "null"
  | JBool true => Ok "true"
  | JBool false => Ok "false"
  | JNum n => Ok (NumberToString n)
  | JStr s => Ok s
  | JArr elems =>
      let fix elems_to_strings (l : list JsValue) : Result (list string) :=
        match l with
        | [] => Ok []
        | e :: rest =>
            match (match e with
                   | JUndefined | JNull => Ok ""
                   | _ => ToString e
                   end) with
            | Throw err => Throw err
            | Ok s =>
                match elems_to_strings rest with
                | Throw err => Throw err
                | Ok ss => Ok (s :: ss)
                end
            end
        end in
      match elems_to_strings elems with
      | Throw err => Throw err
      | Ok ss => Ok (join_comma ss)
      end
  | JObj props =>
      match prop_lookup "toString" props with
      | Some _ => Throw (TypeError "Cannot convert object to primitive value")
      | None => Ok "[object Object]"
      end
  end.

(** Property read [v.key], for a key that no built-in prototype defines
    and that is neither an index nor [length] (the program reads only
    [name] and [message]).  Reading a property of [undefined] or [null]
    throws; a primitive, an array or an object without the key gives
    [undefined]. *)
Definition Get (v : JsValue) (key : string) : Result JsValue :=
  match v with
  | JUndefined => Throw (TypeError "Cannot read properties of undefined")
  | JNull => Throw (TypeError "Cannot read properties of null")
  | JObj props =>
      match prop_lookup key props with
      | Some x => Ok x
      | None => Ok JUndefined
      end
  | JBool _ | JNum _ | JStr _ | JArr _ => Ok JUndefined
  end.

(** Optional chaining [v?.key]: short-circuits to [undefined] on a
    nullish base, otherwise an ordinary property read. *)
Definition OptGet (v : JsValue) (key : string) : Result JsValue :=
  match v with
  | JUndefined | JNull => Ok JUndefined
  | _ => Get v key
  end.

(* ===================================================================== *)
(** ** Effects: state passing with exceptions *)
(* ===================================================================== *)

(** A computation over a state [S] that returns or throws; the state
    reached when it throws is kept (effects are not rolled back).  An
    [await] of a promise that rejects rethrows, so [async] code is
    sequenced with the same [bind]. *)
Definition Eff (S A : Type) : Type := S -> Result A * S.

Definition ret {S A} (a : A) : Eff S A := fun s => (Ok a, s).

Definition bind {S A B} (m : Eff S A) (k : A -> Eff S B) : Eff S B :=
  fun s =>
    match m s with
    | (Ok a, s') => k a s'
    | (Throw e, s') => (Throw e, s')
    end.

Definition liftR {S A} (r : Result A) : Eff S A := fun s => (r, s).

Declare Scope eff_scope.
Delimit Scope eff_scope with eff.
Notation "x <- m ;; k" := (bind m (fun x => k))
  (at level 100, m at next level, right associativity) : eff_scope.
Notation "m ;;; k" := (bind m (fun _ => k))
  (at level 100, right associativity) : eff_scope.
Local Open Scope eff_scope.

(* ===================================================================== *)
(** ** common/interfaces *)
(* ===================================================================== *)

(** A header value as Node delivers it: a string, or a list of strings
    for a repeated header.  Header names arrive lower-cased. *)
Inductive HeaderValue : Type :=
| HStr (s : string)
| HArr (l : list string).

Module HttpRequest.
(** [body], [params] and [headers] are whatever the transport handed
    over; the optional fields are [None] when [undefined]. *)
Record t : Type := {
  body : JsValue;
  params : gmap string string;
  headers : gmap string HeaderValue;
  userId : option string;
  workspaceId : option string
}.
End HttpRequest.

Module HttpResponse.
Record t : Type := {
  statusCode : Z;
  body : JsValue
}.
End HttpResponse.

(* ===================================================================== *)
(** ** common/controller *)
(* ===================================================================== *)

(** The console: the requests printed by [console.log], oldest first. *)
Definition Console : Type := list HttpRequest.t.

Definition console_log (r : HttpRequest.t) : Eff Console unit :=
  fun c => (Ok tt, (c ++ [r])%list).

Module Controller.
(** What an adapter needs of a controller: an object with a [handle]
    method. *)
Record t : Type := {
  handle : HttpRequest.t -> Eff Console HttpResponse.t
}.
End Controller.

Module CommonController.

Definition handle (httpRequest : HttpRequest.t) : Eff Console HttpResponse.t :=
  test <- liftR (Get (HttpRequest.body httpRequest) "name") ;;
  if ToBoolean test then
    console_log httpRequest ;;;
    name <- liftR (Get (HttpRequest.body httpRequest) "name") ;;
    shown <- liftR (ToString name) ;;
    ret {| HttpResponse.statusCode := 200;
           HttpResponse.body :=
             JObj [("message", JStr ("Hello, " +:+ shown +:+ "!"))] |}
  else
    ret {| HttpResponse.statusCode := 400;
           HttpResponse.body :=
             JObj [("message", JStr "Name is required")] |}.

(** [new CommonController()]. *)
Definition new : Controller.t := {| Controller.handle := handle |}.

End CommonController.

(* ===================================================================== *)
(** ** The transports' request and reply objects *)
(* ===================================================================== *)

(** The state an adapter's handler runs in: the console and the calls
    made so far on the reply object, oldest first.  [status], [json] and
    [send] are methods of the frameworks; a call is recorded with its
    argument and returns the reply object for chaining. *)
Record World (R : Type) : Type := {
  console : Console;
  reply : list R
}.
Arguments console {R} w.
Arguments reply {R} w.

Definition lift_console {R A} (m : Eff Console A) : Eff (World R) A :=
  fun w =>
    match m (console w) with
    | (r, c') => (r, {| console := c'; reply := reply w |})
    end.

Definition call {R} (c : R) : Eff (World R) unit :=
  fun w => (Ok tt, {| console := console w; reply := (reply w ++ [c])%list |}).

(** [req.headers[name]?.toString()]: a string is its own string value,
    an array prints through [join]. *)
Definition header_toString (h : HeaderValue) : string :=
  match h with
  | HStr s => s
  | HArr l => join_comma l
  end.

(** [o || d] for an optional string [o]: [undefined] and the empty
    string are falsy. *)
Definition or_default (o : option string) (d : string) : string :=
  match o with
  | Some s => if String.eqb s "" then d else s
  | None => d
  end.

Module ExpressRequest.
(** The fields of Express's [Request] the program touches; [userId] and
    [workspaceId] come from the declaration merged into it. *)
Record t : Type := {
  body : JsValue;
  params : gmap string string;
  headers : gmap string HeaderValue;
  userId : option string;
  workspaceId : option string
}.
End ExpressRequest.

Inductive ExpressCall : Type :=
| res_status (code : Z)
| res_json (payload : JsValue).

Module FastifyRequest.
Record t : Type := {
  body : JsValue;
  params : gmap string string;
  headers : gmap string HeaderValue;
  userId : option string;
  workspaceId : option string
}.
End FastifyRequest.

Inductive FastifyCall : Type :=
| reply_status (code : Z)
| reply_send (payload : JsValue).

(** What reaches the wire, whichever transport wrote it. *)
Inductive Written : Type :=
| WStatus (code : Z)
| WBody (payload : JsValue).

Definition express_written (c : ExpressCall) : Written :=
  match c with
  | res_status code => WStatus code
  | res_json payload => WBody payload
  end.

Definition fastify_written (c : FastifyCall) : Written :=
  match c with
  | reply_status code => WStatus code
  | reply_send payload => WBody payload
  end.

(* ===================================================================== *)
(** ** app/express *)
(* ===================================================================== *)

(** The [httpRequest] object literal of [expressRouteAdapter]. *)
Definition express_httpRequest (req : ExpressRequest.t) : HttpRequest.t :=
  {| HttpRequest.body := ExpressRequest.body req;
     HttpRequest.params := ExpressRequest.params req;
     HttpRequest.headers := ExpressRequest.headers req;
     HttpRequest.userId := ExpressRequest.userId req;
     HttpRequest.workspaceId := ExpressRequest.workspaceId req |}.

Definition expressRouteAdapter (controller : Controller.t)
  (req : ExpressRequest.t) : Eff (World ExpressCall) unit :=
  let httpRequest := express_httpRequest req in
  httpResponse <- lift_console (Controller.handle controller httpRequest) ;;
  if (200 <=? HttpResponse.statusCode httpResponse)%Z
     && (HttpResponse.statusCode httpResponse <=? 299)%Z
  then
    call (res_status (HttpResponse.statusCode httpResponse)) ;;;
    call (res_json (HttpResponse.body httpResponse))
  else
    call (res_status (HttpResponse.statusCode httpResponse)) ;;;
    message <- liftR (OptGet (HttpResponse.body httpResponse) "message") ;;
    call (res_json (JObj [("error", message)])).

Module expressApp.

Definition controller : Controller.t := CommonController.new.

(** Assigns the two fields on the request object, which the next
    handler then receives ([next()]). *)
Definition simpleMiddleware (req : ExpressRequest.t) : ExpressRequest.t :=
  {| ExpressRequest.body := ExpressRequest.body req;
     ExpressRequest.params := ExpressRequest.params req;
     ExpressRequest.headers := ExpressRequest.headers req;
     ExpressRequest.userId :=
       Some (or_default
               (header_toString <$> (ExpressRequest.headers req !! "userid"))
               "default");
     ExpressRequest.workspaceId :=
       header_toString <$> (ExpressRequest.headers req !! "workspaceid") |}.

(** [app.post("/greet", simpleMiddleware, expressRouteAdapter(controller))]. *)
Definition post_greet (req : ExpressRequest.t) : Eff (World ExpressCall) unit :=
  expressRouteAdapter controller (simpleMiddleware req).

End expressApp.

(* ===================================================================== *)
(** ** app/fastify *)
(* ===================================================================== *)

(** The [httpRequest] object literal of [fastifyRouteAdapter]. *)
Definition fastify_httpRequest (request : FastifyRequest.t) : HttpRequest.t :=
  {| HttpRequest.body := FastifyRequest.body request;
     HttpRequest.params := FastifyRequest.params request;
     HttpRequest.headers := FastifyRequest.headers request;
     HttpRequest.userId := FastifyRequest.userId request;
     HttpRequest.workspaceId := FastifyRequest.workspaceId request |}.

Definition fastifyRouteAdapter (controller : Controller.t)
  (request : FastifyRequest.t) : Eff (World FastifyCall) unit :=
  let httpRequest := fastify_httpRequest request in
  httpResponse <- lift_console (Controller.handle controller httpRequest) ;;
  if (200 <=? HttpResponse.statusCode httpResponse)%Z
     && (HttpResponse.statusCode httpResponse <=? 299)%Z
  then
    call (reply_status (HttpResponse.statusCode httpResponse)) ;;;
    call (reply_send (HttpResponse.body httpResponse))
  else
    call (reply_status (HttpResponse.statusCode httpResponse)) ;;;
    message <- liftR (OptGet (HttpResponse.body httpResponse) "message") ;;
    call (reply_send (JObj [("error", message)])).

Module fastifyApp.

Definition controller : Controller.t := CommonController.new.

(** The [preHandler] hook: assigns the two fields on the request object,
    which the route handler then receives ([done()]). *)
Definition simpleMiddleware (request : FastifyRequest.t) : FastifyRequest.t :=
  {| FastifyRequest.body := FastifyRequest.body request;
     FastifyRequest.params := FastifyRequest.params request;
     FastifyRequest.headers := FastifyRequest.headers request;
     FastifyRequest.userId :=
       Some (or_default
               (header_toString <$> (FastifyRequest.headers request !! "userid"))
               "default");
     FastifyRequest.workspaceId :=
       header_toString <$> (FastifyRequest.headers request !! "workspaceid") |}.

(** [fastify.post("/greet", {preHandler: simpleMiddleware},
    fastifyRouteAdapter(controller))]. *)
Definition post_greet (request : FastifyRequest.t) : Eff (World FastifyCall) unit :=
  fastifyRouteAdapter controller (simpleMiddleware request).

End fastifyApp.

(* ===================================================================== *)
(** ** Vocabulary of the properties *)
(* ===================================================================== *)

(** The falsy values, listed one by one (independently of [ToBoolean]). *)
Inductive Falsy : JsValue -> Prop :=
| Falsy_undefined : Falsy JUndefined
| Falsy_null : Falsy JNull
| Falsy_false : Falsy (JBool false)
| Falsy_zero : Falsy (JNum 0)
| Falsy_empty : Falsy (JStr "").

Definition nullish (v : JsValue) : bool :=
  match v with
  | JUndefined | JNull => true
  | _ => false
  end.

(** The [message] field of a response body as a reader of the body sees
    it: the field's value when the body is a mapping that has it,
    [undefined] otherwise. *)
Definition message_field (body : JsValue) : JsValue :=
  match body with
  | JObj props =>
      match prop_lookup "message" props with
      | Some m => m
      | None => JUndefined
      end
  | _ => JUndefined
  end.

(** The body is [null] or [undefined], or has no [message] field. *)
Definition lacks_message (body : JsValue) : Prop :=
  match body with
  | JObj props => prop_lookup "message" props = None
  | _ => True
  end.

Definition in_2xx (code : Z) : Prop := (200 <= code <= 299)%Z.

(** The two responses [CommonController] can build. *)
Definition greeting (shown : string) : HttpResponse.t :=
  {| HttpResponse.statusCode := 200;
     HttpResponse.body :=
       JObj [("message", JStr ("Hello, " +:+ shown +:+ "!"))] |}.

Definition name_required : HttpResponse.t :=
  {| HttpResponse.statusCode := 400;
     HttpResponse.body := JObj [("message", JStr "Name is required")] |}.

(** The same raw input, once as an Express request and once as a Fastify
    request. *)
Definition raw_equiv (e : ExpressRequest.t) (f : FastifyRequest.t) : Prop :=
  ExpressRequest.body e = FastifyRequest.body f
  /\ ExpressRequest.params e = FastifyRequest.params f
  /\ ExpressRequest.headers e = FastifyRequest.headers f
  /\ ExpressRequest.userId e = FastifyRequest.userId f
  /\ ExpressRequest.workspaceId e = FastifyRequest.workspaceId f.

(** A controller that answers every request with [resp]. *)
Definition constant_controller (resp : HttpResponse.t) : Controller.t :=
  {| Controller.handle := fun _ => ret resp |}.

(** Concrete requests used by the examples below. *)
Definition http_request (body : JsValue) : HttpRequest.t :=
  {| HttpRequest.body := body;
     HttpRequest.params := ∅;
     HttpRequest.headers := ∅;
     HttpRequest.userId := None;
     HttpRequest.workspaceId := None |}.

Definition express_request (body : JsValue)
  (headers : gmap string HeaderValue) : ExpressRequest.t :=
  {| ExpressRequest.body := body;
     ExpressRequest.params := ∅;
     ExpressRequest.headers := headers;
     ExpressRequest.userId := None;
     ExpressRequest.workspaceId := None |}.

Definition fastify_request (body : JsValue)
  (headers : gmap string HeaderValue) : FastifyRequest.t :=
  {| FastifyRequest.body := body;
     FastifyRequest.params := ∅;
     FastifyRequest.headers := headers;
     FastifyRequest.userId := None;
     FastifyRequest.workspaceId := None |}.

Definition fresh {R} : World R := {| console := []; reply := [] |}.

(** Requests that carry the [userid] header with nothing in it. *)
Definition empty_userid_express : ExpressRequest.t :=
  express_request (JObj []) {["userid" := HStr ""]}.

Definition empty_userid_fastify : FastifyRequest.t :=
  fastify_request (JObj []) {["userid" := HStr ""]}.

(** A failure whose body is [null]. *)
Definition bodiless_failure : HttpResponse.t :=
  {| HttpResponse.statusCode := 500; HttpResponse.body := JNull |}.

(** A response below 200 whose body carries more than a message. *)
Definition verbose_failure : HttpResponse.t :=
  {| HttpResponse.statusCode := 42;
     HttpResponse.body :=
       JObj [("code", JNum 7); ("message", JStr "gone"); ("detail", JStr "x")] |}.

(** The values that are not objects: what a JSON payload holds at a
    leaf, plus [undefined]. *)
Definition is_primitive (v : JsValue) : bool :=
  match v with
  | JArr _ | JObj _ => false
  | _ => true
  end.

(** A greeting request that also carries headers and context fields. *)
Definition ada_with_context : HttpRequest.t :=
  {| HttpRequest.body := JObj [("name", JStr "Ada")];
     HttpRequest.params := {["id" := "7"]};
     HttpRequest.headers := {["userid" := HStr "u1"]};
     HttpRequest.userId := Some "u1";
     HttpRequest.workspaceId := Some "w1" |}.

(* ===================================================================== *)
(** ** Values *)
(* ===================================================================== *)

Lemma Falsy_ToBoolean (v : JsValue) : Falsy v -> ToBoolean v = false.
Proof. intros F. destruct F; reflexivity. Qed.

Lemma ToBoolean_Falsy (v : JsValue) : ToBoolean v = false -> Falsy v.
Proof.
  destruct v as [ | | [] | n | s | l | p ]; simpl; try discriminate;
    try constructor.
  - intros H. apply negb_false_iff, Z.eqb_eq in H. subst n. constructor.
  - intros H. apply negb_false_iff, String.eqb_eq in H. subst s. constructor.
Qed.

Lemma nonempty_truthy (s : string) : s <> "" -> ToBoolean (JStr s) = true.
Proof.
  intros H. simpl. apply negb_true_iff, String.eqb_neq. exact H.
Qed.

Lemma append_nonempty (s t : string) : "Hello, " +:+ s +:+ t <> "".
Proof. simpl. discriminate. Qed.

Lemma or_default_decide (s d : string) :
  or_default (Some s) d = if decide (s = "") then d else s.
Proof.
  simpl. destruct (String.eqb_spec s ""); destruct (decide (s = ""));
    congruence.
Qed.

Lemma OptGet_message (body : JsValue) :
  OptGet body "message" = Ok (message_field body).
Proof.
  destruct body as [ | | b | n | s | l | props ]; simpl; try reflexivity.
  destruct (prop_lookup "message" props); reflexivity.
Qed.

Lemma lacks_message_undefined (body : JsValue) :
  lacks_message body -> message_field body = JUndefined.
Proof.
  destruct body; simpl; try reflexivity. intros ->. reflexivity.
Qed.

(* ===================================================================== *)
(** ** The controller *)
(* ===================================================================== *)

Section Handle.

Variable req : HttpRequest.t.
Variable k : Console.

(** The three ways through [handle], by what reading [body.name] gives. *)
Lemma handle_falsy (v : JsValue) :
  Get (HttpRequest.body req) "name" = Ok v ->
  ToBoolean v = false ->
  CommonController.handle req k = (Ok name_required, k).
Proof.
  intros HG HB. unfold CommonController.handle, bind, liftR.
  rewrite HG, HB. reflexivity.
Qed.

Lemma handle_truthy (v : JsValue) (r : Result string) :
  Get (HttpRequest.body req) "name" = Ok v ->
  ToBoolean v = true ->
  ToString v = r ->
  CommonController.handle req k =
    (match r with Ok shown => Ok (greeting shown) | Throw e => Throw e end,
     (k ++ [req])%list).
Proof.
  intros HG HB HS. unfold CommonController.handle, bind, liftR, console_log.
  rewrite HG, HB, HS. destruct r; reflexivity.
Qed.

Lemma handle_nullish :
  nullish (HttpRequest.body req) = true ->
  exists msg, CommonController.handle req k = (Throw (TypeError msg), k).
Proof.
  unfold CommonController.handle, bind, liftR.
  destruct (HttpRequest.body req); simpl; try discriminate; eauto.
Qed.

End Handle.

(** C1. When the body maps [name] to a non-empty string [S], [handle]
    returns status 200 with body [{message: "Hello, " + S + "!"}] (and
    has logged the request). *)
Theorem handle_greets
  (req : HttpRequest.t) (props : list (string * JsValue)) (S : string)
  (k : Console) :
  HttpRequest.body req = JObj props ->
  prop_lookup "name" props = Some (JStr S) ->
  S <> "" ->
  CommonController.handle req k =
    (Ok {| HttpResponse.statusCode := 200;
           HttpResponse.body :=
             JObj [("message", JStr ("Hello, " +:+ S +:+ "!"))] |},
     (k ++ [req])%list).
Proof.
  intros Hbody Hname Hne.
  rewrite (handle_truthy req k (JStr S) (Ok S)).
  - reflexivity.
  - rewrite Hbody. simpl. rewrite Hname. reflexivity.
  - apply nonempty_truthy, Hne.
  - reflexivity.
Qed.

Lemma handle_greets_witness :
  CommonController.handle (http_request (JObj [("name", JStr "Ada")])) [] =
    (Ok {| HttpResponse.statusCode := 200;
           HttpResponse.body := JObj [("message", JStr "Hello, Ada!")] |},
     [http_request (JObj [("name", JStr "Ada")])]).
Proof.
  apply (handle_greets (http_request (JObj [("name", JStr "Ada")]))
           [("name", JStr "Ada")] "Ada" []).
  - reflexivity.
  - reflexivity.
  - discriminate.
Defined.

(** C2. When the body is a mapping in which [name] is absent, empty or
    otherwise falsy, [handle] returns status 400 with body
    [{message: "Name is required"}]. *)
Theorem handle_name_required
  (req : HttpRequest.t) (props : list (string * JsValue)) (k : Console) :
  HttpRequest.body req = JObj props ->
  (prop_lookup "name" props = None
   \/ exists v, prop_lookup "name" props = Some v /\ Falsy v) ->
  CommonController.handle req k =
    (Ok {| HttpResponse.statusCode := 400;
           HttpResponse.body := JObj [("message", JStr "Name is required")] |},
     k).
Proof.
  intros Hbody [Habsent | (v & Hv & F)].
  - apply (handle_falsy req k JUndefined); [ | reflexivity ].
    rewrite Hbody. simpl. rewrite Habsent. reflexivity.
  - apply (handle_falsy req k v); [ | apply Falsy_ToBoolean, F ].
    rewrite Hbody. simpl. rewrite Hv. reflexivity.
Qed.

Lemma handle_name_required_witness :
  CommonController.handle (http_request (JObj [])) [] =
    (Ok {| HttpResponse.statusCode := 400;
           HttpResponse.body := JObj [("message", JStr "Name is required")] |},
     [])
  /\ CommonController.handle (http_request (JObj [("name", JStr "")])) [] =
    (Ok {| HttpResponse.statusCode := 400;
           HttpResponse.body := JObj [("message", JStr "Name is required")] |},
     []).
Proof.
  split.
  - apply (handle_name_required (http_request (JObj [])) [] []).
    + reflexivity.
    + left. reflexivity.
  - apply (handle_name_required (http_request (JObj [("name", JStr "")]))
             [("name", JStr "")] []).
    + reflexivity.
    + right. exists (JStr ""). split; [ reflexivity | constructor ].
Defined.

(** C4, as stated, fails: with an [undefined] body the read of
    [body.name] throws, and no 400 response is produced. *)
Lemma handle_undefined_body_throws :
  CommonController.handle (http_request JUndefined) [] =
    (Throw (TypeError "Cannot read properties of undefined"), [])
  /\ fst (CommonController.handle (http_request JUndefined) [])
     <> Ok name_required.
Proof. split; [ reflexivity | discriminate ]. Qed.

(** C4, amended.  The outcome of [handle] by the shape of the body:
    a [null] or [undefined] body makes it throw a [TypeError]; any other
    body that is not a mapping (boolean, number, string, array) counts as
    "name absent" and gives the 400 response; on a mapping it returns
    normally unless a truthy [name] has no string conversion. *)
Theorem handle_outcome_by_body (req : HttpRequest.t) (k : Console) :
  match HttpRequest.body req with
  | JUndefined | JNull =>
      exists msg, CommonController.handle req k = (Throw (TypeError msg), k)
  | JBool _ | JNum _ | JStr _ | JArr _ =>
      CommonController.handle req k = (Ok name_required, k)
  | JObj props =>
      is_ok (fst (CommonController.handle req k)) =
        match prop_lookup "name" props with
        | Some v => negb (ToBoolean v) || is_ok (ToString v)
        | None => true
        end
  end.
Proof.
  destruct (HttpRequest.body req) as [ | | b | n | s | l | props ] eqn:Hbody;
    try (apply handle_nullish; rewrite Hbody; reflexivity);
    try (apply (handle_falsy req k JUndefined);
         [ rewrite Hbody | ]; reflexivity).
  destruct (prop_lookup "name" props) as [v | ] eqn:Hname.
  - destruct (ToBoolean v) eqn:HB.
    + rewrite (handle_truthy req k v (ToString v));
        [ | rewrite Hbody; simpl; rewrite Hname | | ]; auto.
      simpl. destruct (ToString v); reflexivity.
    + rewrite (handle_falsy req k v);
        [ | rewrite Hbody; simpl; rewrite Hname | ]; auto.
  - rewrite (handle_falsy req k JUndefined);
      [ | rewrite Hbody; simpl; rewrite Hname | ]; auto.
Qed.

(** C9. A response returned by [handle] has status 200 or 400 and a body
    that is exactly [{message: m}] with [m] a non-empty string, so the
    adapters' read of [body?.message] finds [m]. *)
Theorem handle_response_shape
  (req : HttpRequest.t) (k k' : Console) (resp : HttpResponse.t) :
  CommonController.handle req k = (Ok resp, k') ->
  (HttpResponse.statusCode resp = 200%Z \/ HttpResponse.statusCode resp = 400%Z)
  /\ exists m : string,
       HttpResponse.body resp = JObj [("message", JStr m)]
       /\ m <> ""
       /\ OptGet (HttpResponse.body resp) "message" = Ok (JStr m).
Proof.
  intros H.
  destruct (Get (HttpRequest.body req) "name") as [v | e] eqn:HG.
  - destruct (ToBoolean v) eqn:HB.
    + rewrite (handle_truthy req k v (ToString v) HG HB eq_refl) in H.
      destruct (ToString v) as [shown | e]; [ | discriminate ].
      injection H as <- _. split; [ left; reflexivity | ].
      exists ("Hello, " +:+ shown +:+ "!").
      split; [ reflexivity | ]. split; [ apply append_nonempty | reflexivity ].
    + rewrite (handle_falsy req k v HG HB) in H.
      injection H as <- _. split; [ right; reflexivity | ].
      exists "Name is required".
      split; [ reflexivity | ]. split; [ discriminate | reflexivity ].
  - unfold CommonController.handle, bind, liftR in H. rewrite HG in H.
    discriminate.
Qed.

Lemma handle_response_shape_witness :
  (HttpResponse.statusCode (greeting "Ada") = 200%Z
   \/ HttpResponse.statusCode (greeting "Ada") = 400%Z)
  /\ exists m : string,
       HttpResponse.body (greeting "Ada") = JObj [("message", JStr m)]
       /\ m <> ""
       /\ OptGet (HttpResponse.body (greeting "Ada")) "message" = Ok (JStr m).
Proof.
  apply (handle_response_shape
           (http_request (JObj [("name", JStr "Ada")])) []
           [http_request (JObj [("name", JStr "Ada")])] (greeting "Ada")).
  reflexivity.
Defined.

(* ===================================================================== *)
(** ** The adapters *)
(* ===================================================================== *)

Lemma in_2xx_test (code : Z) :
  in_2xx code -> ((200 <=? code)%Z && (code <=? 299)%Z) = true.
Proof. unfold in_2xx. intros H. apply andb_true_iff. lia. Qed.

Lemma not_2xx_test (code : Z) :
  (code < 200 \/ 299 < code)%Z -> ((200 <=? code)%Z && (code <=? 299)%Z) = false.
Proof. intros H. apply andb_false_iff. lia. Qed.

Lemma raw_equiv_httpRequest (e : ExpressRequest.t) (f : FastifyRequest.t) :
  raw_equiv e f -> express_httpRequest e = fastify_httpRequest f.
Proof.
  destruct e, f. unfold raw_equiv. simpl.
  intros (-> & -> & -> & -> & ->). reflexivity.
Qed.

(** Runs a handler up to the controller's answer [H] and decides the
    status test with [T]. *)
Ltac run_handler H T :=
  unfold expressRouteAdapter, fastifyRouteAdapter, bind, lift_console, call,
    liftR;
  rewrite H; cbn beta iota;
  try (rewrite T; cbn beta iota; rewrite ?OptGet_message; cbn;
       rewrite <- ?app_assoc);
  try reflexivity.

Section Adapters.

Variable c : Controller.t.

Section Express.

Variable req : ExpressRequest.t.
Variable w : World ExpressCall.

Lemma express_on_throw (err : JsError) (k' : Console) :
  Controller.handle c (express_httpRequest req) (console w) = (Throw err, k') ->
  expressRouteAdapter c req w =
    (Throw err, {| console := k'; reply := reply w |}).
Proof. intros H. run_handler H H. Qed.

Lemma express_on_2xx (resp : HttpResponse.t) (k' : Console) :
  Controller.handle c (express_httpRequest req) (console w) = (Ok resp, k') ->
  in_2xx (HttpResponse.statusCode resp) ->
  expressRouteAdapter c req w =
    (Ok tt,
     {| console := k';
        reply := (reply w ++ [res_status (HttpResponse.statusCode resp);
                              res_json (HttpResponse.body resp)])%list |}).
Proof. intros H R. apply in_2xx_test in R. run_handler H R. Qed.

Lemma express_on_other (resp : HttpResponse.t) (k' : Console) :
  Controller.handle c (express_httpRequest req) (console w) = (Ok resp, k') ->
  (HttpResponse.statusCode resp < 200 \/ 299 < HttpResponse.statusCode resp)%Z ->
  expressRouteAdapter c req w =
    (Ok tt,
     {| console := k';
        reply := (reply w ++
                  [res_status (HttpResponse.statusCode resp);
                   res_json (JObj [("error",
                                    message_field (HttpResponse.body resp))])])%list |}).
Proof. intros H R. apply not_2xx_test in R. run_handler H R. Qed.

End Express.

Section Fastify.

Variable request : FastifyRequest.t.
Variable w : World FastifyCall.

Lemma fastify_on_throw (err : JsError) (k' : Console) :
  Controller.handle c (fastify_httpRequest request) (console w) = (Throw err, k') ->
  fastifyRouteAdapter c request w =
    (Throw err, {| console := k'; reply := reply w |}).
Proof. intros H. run_handler H H. Qed.

Lemma fastify_on_2xx (resp : HttpResponse.t) (k' : Console) :
  Controller.handle c (fastify_httpRequest request) (console w) = (Ok resp, k') ->
  in_2xx (HttpResponse.statusCode resp) ->
  fastifyRouteAdapter c request w =
    (Ok tt,
     {| console := k';
        reply := (reply w ++ [reply_status (HttpResponse.statusCode resp);
                              reply_send (HttpResponse.body resp)])%list |}).
Proof. intros H R. apply in_2xx_test in R. run_handler H R. Qed.

Lemma fastify_on_other (resp : HttpResponse.t) (k' : Console) :
  Controller.handle c (fastify_httpRequest request) (console w) = (Ok resp, k') ->
  (HttpResponse.statusCode resp < 200 \/ 299 < HttpResponse.statusCode resp)%Z ->
  fastifyRouteAdapter c request w =
    (Ok tt,
     {| console := k';
        reply := (reply w ++
                  [reply_status (HttpResponse.statusCode resp);
                   reply_send (JObj [("error",
                                      message_field (HttpResponse.body resp))])])%list |}).
Proof. intros H R. apply not_2xx_test in R. run_handler H R. Qed.

End Fastify.

End Adapters.

(** C5. When the controller answers with a status in [200,299], each
    adapter's handler sets exactly that status and then writes the
    response body itself, unwrapped; nothing else is written. *)
Theorem success_reply_is_identity
  (c : Controller.t) (e : ExpressRequest.t) (f : FastifyRequest.t)
  (we : World ExpressCall) (wf : World FastifyCall)
  (resp : HttpResponse.t) (ke kf : Console) :
  Controller.handle c (express_httpRequest e) (console we) = (Ok resp, ke) ->
  Controller.handle c (fastify_httpRequest f) (console wf) = (Ok resp, kf) ->
  (200 <= HttpResponse.statusCode resp <= 299)%Z ->
  expressRouteAdapter c e we =
    (Ok tt,
     {| console := ke;
        reply := (reply we ++ [res_status (HttpResponse.statusCode resp);
                               res_json (HttpResponse.body resp)])%list |})
  /\ fastifyRouteAdapter c f wf =
    (Ok tt,
     {| console := kf;
        reply := (reply wf ++ [reply_status (HttpResponse.statusCode resp);
                               reply_send (HttpResponse.body resp)])%list |}).
Proof.
  intros He Hf R. split.
  - apply express_on_2xx; assumption.
  - apply fastify_on_2xx; assumption.
Qed.

Lemma success_reply_is_identity_witness :
  expressRouteAdapter CommonController.new
    (express_request (JObj [("name", JStr "Ada")]) ∅) fresh =
    (Ok tt,
     {| console := [http_request (JObj [("name", JStr "Ada")])];
        reply := [res_status 200;
                  res_json (JObj [("message", JStr "Hello, Ada!")])] |})
  /\ fastifyRouteAdapter CommonController.new
    (fastify_request (JObj [("name", JStr "Ada")]) ∅) fresh =
    (Ok tt,
     {| console := [http_request (JObj [("name", JStr "Ada")])];
        reply := [reply_status 200;
                  reply_send (JObj [("message", JStr "Hello, Ada!")])] |}).
Proof.
  apply (success_reply_is_identity CommonController.new
           (express_request (JObj [("name", JStr "Ada")]) ∅)
           (fastify_request (JObj [("name", JStr "Ada")]) ∅)
           fresh fresh (greeting "Ada")
           [http_request (JObj [("name", JStr "Ada")])]
           [http_request (JObj [("name", JStr "Ada")])]).
  - reflexivity.
  - reflexivity.
  - simpl. lia.
Defined.

(** C6. When the controller answers with any status outside [200,299]
    (below 200, above 299, or no HTTP status at all), each adapter's
    handler sets that status and writes the one-field object
    [{error: body.message}]; every other field of the body is dropped. *)
Theorem failure_reply_is_error_envelope
  (c : Controller.t) (e : ExpressRequest.t) (f : FastifyRequest.t)
  (we : World ExpressCall) (wf : World FastifyCall)
  (resp : HttpResponse.t) (ke kf : Console) :
  Controller.handle c (express_httpRequest e) (console we) = (Ok resp, ke) ->
  Controller.handle c (fastify_httpRequest f) (console wf) = (Ok resp, kf) ->
  (HttpResponse.statusCode resp < 200 \/ 299 < HttpResponse.statusCode resp)%Z ->
  expressRouteAdapter c e we =
    (Ok tt,
     {| console := ke;
        reply := (reply we ++
                  [res_status (HttpResponse.statusCode resp);
                   res_json (JObj [("error",
                                    message_field (HttpResponse.body resp))])])%list |})
  /\ fastifyRouteAdapter c f wf =
    (Ok tt,
     {| console := kf;
        reply := (reply wf ++
                  [reply_status (HttpResponse.statusCode resp);
                   reply_send (JObj [("error",
                                      message_field (HttpResponse.body resp))])])%list |}).
Proof.
  intros He Hf R. split.
  - apply express_on_other; assumption.
  - apply fastify_on_other; assumption.
Qed.

Lemma failure_reply_is_error_envelope_witness :
  expressRouteAdapter (constant_controller verbose_failure)
    (express_request (JObj []) ∅) fresh =
    (Ok tt,
     {| console := [];
        reply := [res_status 42; res_json (JObj [("error", JStr "gone")])] |})
  /\ fastifyRouteAdapter (constant_controller verbose_failure)
    (fastify_request (JObj []) ∅) fresh =
    (Ok tt,
     {| console := [];
        reply := [reply_status 42; reply_send (JObj [("error", JStr "gone")])] |}).
Proof.
  apply (failure_reply_is_error_envelope (constant_controller verbose_failure)
           (express_request (JObj []) ∅) (fastify_request (JObj []) ∅)
           fresh fresh verbose_failure [] []).
  - reflexivity.
  - reflexivity.
  - left. simpl. lia.
Defined.

(** C10. On the non-2xx path a body that is [null], [undefined] or
    without a [message] field does not make a handler throw: it returns
    normally, having written the status and [{error: undefined}]. *)
Theorem failure_reply_total_in_body
  (c : Controller.t) (e : ExpressRequest.t) (f : FastifyRequest.t)
  (we : World ExpressCall) (wf : World FastifyCall)
  (resp : HttpResponse.t) (ke kf : Console) :
  Controller.handle c (express_httpRequest e) (console we) = (Ok resp, ke) ->
  Controller.handle c (fastify_httpRequest f) (console wf) = (Ok resp, kf) ->
  (HttpResponse.statusCode resp < 200 \/ 299 < HttpResponse.statusCode resp)%Z ->
  lacks_message (HttpResponse.body resp) ->
  expressRouteAdapter c e we =
    (Ok tt,
     {| console := ke;
        reply := (reply we ++
                  [res_status (HttpResponse.statusCode resp);
                   res_json (JObj [("error", JUndefined)])])%list |})
  /\ fastifyRouteAdapter c f wf =
    (Ok tt,
     {| console := kf;
        reply := (reply wf ++
                  [reply_status (HttpResponse.statusCode resp);
                   reply_send (JObj [("error", JUndefined)])])%list |}).
Proof.
  intros He Hf R L. apply lacks_message_undefined in L. split.
  - rewrite (express_on_other c e we resp ke He R), L. reflexivity.
  - rewrite (fastify_on_other c f wf resp kf Hf R), L. reflexivity.
Qed.

Lemma failure_reply_total_in_body_witness :
  expressRouteAdapter (constant_controller bodiless_failure)
    (express_request (JObj []) ∅) fresh =
    (Ok tt,
     {| console := [];
        reply := [res_status 500; res_json (JObj [("error", JUndefined)])] |})
  /\ fastifyRouteAdapter (constant_controller bodiless_failure)
    (fastify_request (JObj []) ∅) fresh =
    (Ok tt,
     {| console := [];
        reply := [reply_status 500;
                  reply_send (JObj [("error", JUndefined)])] |}).
Proof.
  apply (failure_reply_total_in_body (constant_controller bodiless_failure)
           (express_request (JObj []) ∅) (fastify_request (JObj []) ∅)
           fresh fresh bodiless_failure [] []).
  - reflexivity.
  - reflexivity.
  - right. simpl. lia.
  - exact I.
Defined.

(** C3. Given the same raw input and the same controller, the Express
    handler and the Fastify handler assemble the same [HttpRequest], end
    the same way (returned or thrown, with the same error), leave the
    same console and write the same status and body. *)
Theorem adapters_interchangeable
  (c : Controller.t) (e : ExpressRequest.t) (f : FastifyRequest.t)
  (we : World ExpressCall) (wf : World FastifyCall) :
  raw_equiv e f ->
  console we = console wf ->
  map express_written (reply we) = map fastify_written (reply wf) ->
  express_httpRequest e = fastify_httpRequest f
  /\ fst (expressRouteAdapter c e we) = fst (fastifyRouteAdapter c f wf)
  /\ console (snd (expressRouteAdapter c e we)) =
     console (snd (fastifyRouteAdapter c f wf))
  /\ map express_written (reply (snd (expressRouteAdapter c e we))) =
     map fastify_written (reply (snd (fastifyRouteAdapter c f wf))).
Proof.
  intros Hraw Hk Hr. pose proof (raw_equiv_httpRequest e f Hraw) as Hreq.
  split; [ exact Hreq | ].
  destruct (Controller.handle c (express_httpRequest e) (console we))
    as [[resp | err] k'] eqn:He.
  - assert (Hf : Controller.handle c (fastify_httpRequest f) (console wf)
                 = (Ok resp, k')) by (rewrite <- Hreq, <- Hk; exact He).
    destruct (Z_lt_le_dec (HttpResponse.statusCode resp) 200) as [Lo | Lo];
      [ | destruct (Z_lt_le_dec 299 (HttpResponse.statusCode resp)) as [Hi | Hi] ].
    + rewrite (express_on_other c e we resp k' He (or_introl Lo)),
        (fastify_on_other c f wf resp k' Hf (or_introl Lo)).
      simpl. rewrite !map_app, Hr. auto.
    + rewrite (express_on_other c e we resp k' He (or_intror Hi)),
        (fastify_on_other c f wf resp k' Hf (or_intror Hi)).
      simpl. rewrite !map_app, Hr. auto.
    + rewrite (express_on_2xx c e we resp k' He (conj Lo Hi)),
        (fastify_on_2xx c f wf resp k' Hf (conj Lo Hi)).
      simpl. rewrite !map_app, Hr. auto.
  - assert (Hf : Controller.handle c (fastify_httpRequest f) (console wf)
                 = (Throw err, k')) by (rewrite <- Hreq, <- Hk; exact He).
    rewrite (express_on_throw c e we err k' He),
      (fastify_on_throw c f wf err k' Hf).
    simpl. auto.
Qed.

Lemma adapters_interchangeable_witness :
  express_httpRequest (express_request (JObj []) {["userid" := HStr "u1"]}) =
  fastify_httpRequest (fastify_request (JObj []) {["userid" := HStr "u1"]})
  /\ fst (expressRouteAdapter CommonController.new
            (express_request (JObj []) {["userid" := HStr "u1"]}) fresh) =
     fst (fastifyRouteAdapter CommonController.new
            (fastify_request (JObj []) {["userid" := HStr "u1"]}) fresh)
  /\ console (snd (expressRouteAdapter CommonController.new
            (express_request (JObj []) {["userid" := HStr "u1"]}) fresh)) =
     console (snd (fastifyRouteAdapter CommonController.new
            (fastify_request (JObj []) {["userid" := HStr "u1"]}) fresh))
  /\ map express_written
       (reply (snd (expressRouteAdapter CommonController.new
            (express_request (JObj []) {["userid" := HStr "u1"]}) fresh))) =
     map fastify_written
       (reply (snd (fastifyRouteAdapter CommonController.new
            (fastify_request (JObj []) {["userid" := HStr "u1"]}) fresh))).
Proof.
  apply (adapters_interchangeable CommonController.new
           (express_request (JObj []) {["userid" := HStr "u1"]})
           (fastify_request (JObj []) {["userid" := HStr "u1"]})
           fresh fresh).
  - repeat split.
  - reflexivity.
  - reflexivity.
Defined.

(** C7, as stated, fails: a raw request whose body is [null] (Fastify) or
    [undefined] (Express) is assembled into an [HttpRequest] whose body
    is [null], respectively [undefined]; the controller then throws on
    it. *)
Lemma absent_body_stays_absent :
  HttpRequest.body (fastify_httpRequest (fastify_request JNull ∅)) = JNull
  /\ HttpRequest.body (express_httpRequest (express_request JUndefined ∅))
     = JUndefined
  /\ fst (fastifyRouteAdapter CommonController.new
            (fastify_request JNull ∅) fresh)
     = Throw (TypeError "Cannot read properties of null").
Proof. repeat split. Qed.

(** C7, amended.  Each adapter copies [body], [params], [headers],
    [userId] and [workspaceId] from the raw request unchanged, so an
    absent raw field stays absent and the assembled body is [null] or
    [undefined] exactly when the raw body is; the assembly never throws:
    a handler returns normally exactly when the controller does on the
    assembled request. *)
Theorem adapters_copy_raw_fields
  (c : Controller.t) (e : ExpressRequest.t) (f : FastifyRequest.t)
  (we : World ExpressCall) (wf : World FastifyCall) :
  (HttpRequest.body (express_httpRequest e) = ExpressRequest.body e
   /\ HttpRequest.params (express_httpRequest e) = ExpressRequest.params e
   /\ HttpRequest.headers (express_httpRequest e) = ExpressRequest.headers e
   /\ HttpRequest.userId (express_httpRequest e) = ExpressRequest.userId e
   /\ HttpRequest.workspaceId (express_httpRequest e)
      = ExpressRequest.workspaceId e)
  /\ (HttpRequest.body (fastify_httpRequest f) = FastifyRequest.body f
   /\ HttpRequest.params (fastify_httpRequest f) = FastifyRequest.params f
   /\ HttpRequest.headers (fastify_httpRequest f) = FastifyRequest.headers f
   /\ HttpRequest.userId (fastify_httpRequest f) = FastifyRequest.userId f
   /\ HttpRequest.workspaceId (fastify_httpRequest f)
      = FastifyRequest.workspaceId f)
  /\ is_ok (fst (expressRouteAdapter c e we)) =
     is_ok (fst (Controller.handle c (express_httpRequest e) (console we)))
  /\ is_ok (fst (fastifyRouteAdapter c f wf)) =
     is_ok (fst (Controller.handle c (fastify_httpRequest f) (console wf))).
Proof.
  split; [ repeat split | ]. split; [ repeat split | ]. split.
  - destruct (Controller.handle c (express_httpRequest e) (console we))
      as [[resp | err] k'] eqn:He.
    + destruct (Z_lt_le_dec (HttpResponse.statusCode resp) 200) as [Lo | Lo];
        [ | destruct (Z_lt_le_dec 299 (HttpResponse.statusCode resp))
              as [Hi | Hi] ].
      * rewrite (express_on_other c e we resp k' He (or_introl Lo)); reflexivity.
      * rewrite (express_on_other c e we resp k' He (or_intror Hi)); reflexivity.
      * rewrite (express_on_2xx c e we resp k' He (conj Lo Hi)); reflexivity.
    + rewrite (express_on_throw c e we err k' He). reflexivity.
  - destruct (Controller.handle c (fastify_httpRequest f) (console wf))
      as [[resp | err] k'] eqn:Hf.
    + destruct (Z_lt_le_dec (HttpResponse.statusCode resp) 200) as [Lo | Lo];
        [ | destruct (Z_lt_le_dec 299 (HttpResponse.statusCode resp))
              as [Hi | Hi] ].
      * rewrite (fastify_on_other c f wf resp k' Hf (or_introl Lo)); reflexivity.
      * rewrite (fastify_on_other c f wf resp k' Hf (or_intror Hi)); reflexivity.
      * rewrite (fastify_on_2xx c f wf resp k' Hf (conj Lo Hi)); reflexivity.
    + rewrite (fastify_on_throw c f wf err k' Hf). reflexivity.
Qed.

(* ===================================================================== *)
(** ** The header middleware *)
(* ===================================================================== *)

(** C8, as stated, fails: the [userid] header is present with the empty
    string as its value, and [userId] is set to ["default"], not to the
    header's value; it happens in both apps. *)
Lemma empty_userid_header_gives_default :
  ExpressRequest.headers empty_userid_express !! "userid" = Some (HStr "")
  /\ ExpressRequest.userId (expressApp.simpleMiddleware empty_userid_express)
     = Some "default"
  /\ ExpressRequest.userId (expressApp.simpleMiddleware empty_userid_express)
     <> Some (header_toString (HStr ""))
  /\ FastifyRequest.headers empty_userid_fastify !! "userid" = Some (HStr "")
  /\ FastifyRequest.userId (fastifyApp.simpleMiddleware empty_userid_fastify)
     = Some "default"
  /\ FastifyRequest.userId (fastifyApp.simpleMiddleware empty_userid_fastify)
     <> Some (header_toString (HStr "")).
Proof. repeat split; discriminate. Qed.

(** C8, amended.  In both apps the middleware sets [userId] to the
    string value of the [userid] header when the header is present and
    that value is not empty, and to ["default"] when the header is absent
    or its value is the empty string; it sets [workspaceId] to the string
    value of the [workspaceid] header (empty or not) and leaves it
    [undefined] when the header is absent.  The other fields of the
    request are untouched. *)
Theorem simpleMiddleware_sets_context
  (e : ExpressRequest.t) (f : FastifyRequest.t) :
  (ExpressRequest.userId (expressApp.simpleMiddleware e) =
     Some (match ExpressRequest.headers e !! "userid" with
           | Some h => if decide (header_toString h = "") then "default"
                       else header_toString h
           | None => "default"
           end)
   /\ ExpressRequest.workspaceId (expressApp.simpleMiddleware e) =
      match ExpressRequest.headers e !! "workspaceid" with
      | Some h => Some (header_toString h)
      | None => None
      end
   /\ ExpressRequest.body (expressApp.simpleMiddleware e) = ExpressRequest.body e
   /\ ExpressRequest.params (expressApp.simpleMiddleware e)
      = ExpressRequest.params e
   /\ ExpressRequest.headers (expressApp.simpleMiddleware e)
      = ExpressRequest.headers e)
  /\ (FastifyRequest.userId (fastifyApp.simpleMiddleware f) =
     Some (match FastifyRequest.headers f !! "userid" with
           | Some h => if decide (header_toString h = "") then "default"
                       else header_toString h
           | None => "default"
           end)
   /\ FastifyRequest.workspaceId (fastifyApp.simpleMiddleware f) =
      match FastifyRequest.headers f !! "workspaceid" with
      | Some h => Some (header_toString h)
      | None => None
      end
   /\ FastifyRequest.body (fastifyApp.simpleMiddleware f) = FastifyRequest.body f
   /\ FastifyRequest.params (fastifyApp.simpleMiddleware f)
      = FastifyRequest.params f
   /\ FastifyRequest.headers (fastifyApp.simpleMiddleware f)
      = FastifyRequest.headers f).
Proof.
  split.
  - split; [ | split; [ | repeat split ] ]; simpl.
    + destruct (ExpressRequest.headers e !! "userid") as [h | ]; simpl;
        [ | reflexivity ].
      f_equal. apply or_default_decide.
    + destruct (ExpressRequest.headers e !! "workspaceid"); reflexivity.
  - split; [ | split; [ | repeat split ] ]; simpl.
    + destruct (FastifyRequest.headers f !! "userid") as [h | ]; simpl;
        [ | reflexivity ].
      f_equal. apply or_default_decide.
    + destruct (FastifyRequest.headers f !! "workspaceid"); reflexivity.
Qed.

(* ===================================================================== *)
(** ** The two routes on the scenarios of the specification *)
(* ===================================================================== *)

Example greet_Ada_express :
  expressApp.post_greet (express_request (JObj [("name", JStr "Ada")]) ∅) fresh
  = (Ok tt,
     {| console :=
          [{| HttpRequest.body := JObj [("name", JStr "Ada")];
              HttpRequest.params := ∅;
              HttpRequest.headers := ∅;
              HttpRequest.userId := Some "default";
              HttpRequest.workspaceId := None |}];
        reply := [res_status 200;
                  res_json (JObj [("message", JStr "Hello, Ada!")])] |}).
Proof. reflexivity. Qed.

Example greet_nobody_fastify :
  fastifyApp.post_greet (fastify_request (JObj []) ∅) fresh
  = (Ok tt,
     {| console := [];
        reply := [reply_status 400;
                  reply_send (JObj [("error", JStr "Name is required")])] |}).
Proof. reflexivity. Qed.

Example userid_header_reaches_controller :
  let request :=
    fastify_httpRequest
      (fastifyApp.simpleMiddleware
         (fastify_request (JObj []) {["userid" := HStr "u1"]})) in
  HttpRequest.userId request = Some "u1"
  /\ HttpRequest.workspaceId request = None.
Proof. split; reflexivity. Qed.

Example greet_without_body_fastify :
  fastifyApp.post_greet (fastify_request JUndefined ∅) fresh
  = (Throw (TypeError "Cannot read properties of undefined"), fresh).
Proof. reflexivity. Qed.

Example greet_unprintable_name :
  CommonController.handle
    (http_request (JObj [("name", JObj [("toString", JNum 1)])])) []
  = (Throw (TypeError "Cannot convert object to primitive value"),
     [http_request (JObj [("name", JObj [("toString", JNum 1)])])]).
Proof. reflexivity. Qed.

(* ===================================================================== *)
(** ** More on the controller *)
(* ===================================================================== *)

(** [handle] in one equation, by what the read of [body.name] gives. *)
Lemma handle_by_name (req : HttpRequest.t) (k : Console) :
  CommonController.handle req k =
    match Get (HttpRequest.body req) "name" with
    | Throw e => (Throw e, k)
    | Ok v =>
        if ToBoolean v then
          (match ToString v with
           | Ok shown => Ok (greeting shown)
           | Throw e => Throw e
           end, (k ++ [req])%list)
        else (Ok name_required, k)
    end.
Proof.
  unfold CommonController.handle, bind, liftR, console_log, ret.
  destruct (Get (HttpRequest.body req) "name") as [v | e]; [ | reflexivity ].
  destruct (ToBoolean v); [ | reflexivity ].
  destruct (ToString v); reflexivity.
Qed.

Lemma ToString_primitive (v : JsValue) :
  is_primitive v = true -> exists s, ToString v = Ok s.
Proof.
  destruct v as [ | | [] | n | s | l | p ]; simpl; try discriminate; eauto.
Qed.

(** X8. The answer of [handle] depends on the request's body alone:
    params, headers, [userId], [workspaceId] and whatever the console
    holds have no influence on the response or on the error thrown. *)
Theorem handle_depends_only_on_body
  (r1 r2 : HttpRequest.t) (k1 k2 : Console) :
  HttpRequest.body r1 = HttpRequest.body r2 ->
  fst (CommonController.handle r1 k1) = fst (CommonController.handle r2 k2).
Proof.
  intros Hb. rewrite !handle_by_name, Hb.
  destruct (Get (HttpRequest.body r2) "name") as [v | e]; [ | reflexivity ].
  destruct (ToBoolean v); reflexivity.
Qed.

Lemma handle_depends_only_on_body_witness :
  fst (CommonController.handle ada_with_context []) =
  fst (CommonController.handle (http_request (JObj [("name", JStr "Ada")]))
         [ada_with_context]).
Proof.
  apply (handle_depends_only_on_body ada_with_context
           (http_request (JObj [("name", JStr "Ada")])) [] [ada_with_context]).
  reflexivity.
Defined.



(** X10. On a mapping body whose [name] is absent or a primitive
    (string, number, boolean, [null]) [handle] always returns a response;
    only a [name] that is itself an object or an array can make the
    greeting throw. *)
Theorem handle_total_on_primitive_name
  (req : HttpRequest.t) (props : list (string * JsValue)) (k : Console) :
  HttpRequest.body req = JObj props ->
  (forall v, prop_lookup "name" props = Some v -> is_primitive v = true) ->
  exists resp k', CommonController.handle req k = (Ok resp, k').
Proof.
  intros Hbody Hprim. rewrite handle_by_name, Hbody. simpl.
  destruct (prop_lookup "name" props) as [v | ]; simpl; [ | eauto ].
  destruct (ToBoolean v); [ | eauto ].
  destruct (ToString_primitive v (Hprim v eq_refl)) as [s ->]. eauto.
Qed.

Lemma handle_total_on_primitive_name_witness :
  exists resp k',
    CommonController.handle (http_request (JObj [("name", JBool true)])) []
    = (Ok resp, k').
Proof.
  apply (handle_total_on_primitive_name
           (http_request (JObj [("name", JBool true)]))
           [("name", JBool true)] []).
  - reflexivity.
  - intros v [= <-]. reflexivity.
Defined.



(* ===================================================================== *)
(** ** More on the adapters *)
(* ===================================================================== *)

(** A status is in the 2xx range or on one side of it. *)
Lemma status_cases (code : Z) :
  in_2xx code \/ (code < 200 \/ 299 < code)%Z.
Proof. unfold in_2xx. lia. Qed.

Lemma world_eta {R} (w : World R) :
  {| console := console w; reply := reply w |} = w.
Proof. destruct w. reflexivity. Qed.

(** What a handler leaves behind, for any answer of the controller: the
    controller's console, and the earlier calls followed by a status
    call and a body call, or by nothing when the controller threw. *)
Lemma express_outcome (c : Controller.t) (e : ExpressRequest.t)
  (w : World ExpressCall) :
  match Controller.handle c (express_httpRequest e) (console w) with
  | (Ok resp, k') =>
      exists payload,
        expressRouteAdapter c e w =
          (Ok tt,
           {| console := k';
              reply := (reply w ++ [res_status (HttpResponse.statusCode resp);
                                    res_json payload])%list |})
  | (Throw err, k') =>
      expressRouteAdapter c e w =
        (Throw err, {| console := k'; reply := reply w |})
  end.
Proof.
  destruct (Controller.handle c (express_httpRequest e) (console w))
    as [[resp | err] k'] eqn:H.
  - destruct (status_cases (HttpResponse.statusCode resp)) as [R | R].
    + eexists. apply express_on_2xx; eassumption.
    + eexists. apply express_on_other; eassumption.
  - apply express_on_throw, H.
Qed.

Lemma fastify_outcome (c : Controller.t) (f : FastifyRequest.t)
  (w : World FastifyCall) :
  match Controller.handle c (fastify_httpRequest f) (console w) with
  | (Ok resp, k') =>
      exists payload,
        fastifyRouteAdapter c f w =
          (Ok tt,
           {| console := k';
              reply := (reply w ++ [reply_status (HttpResponse.statusCode resp);
                                    reply_send payload])%list |})
  | (Throw err, k') =>
      fastifyRouteAdapter c f w =
        (Throw err, {| console := k'; reply := reply w |})
  end.
Proof.
  destruct (Controller.handle c (fastify_httpRequest f) (console w))
    as [[resp | err] k'] eqn:H.
  - destruct (status_cases (HttpResponse.statusCode resp)) as [R | R].
    + eexists. apply fastify_on_2xx; eassumption.
    + eexists. apply fastify_on_other; eassumption.
  - apply fastify_on_throw, H.
Qed.

(** X1. Neither adapter catches: when the controller throws, the handler
    throws the same error and makes no call on the reply object, so no
    status and no body are written. *)
Theorem handler_propagates_throw
  (c : Controller.t) (e : ExpressRequest.t) (f : FastifyRequest.t)
  (we : World ExpressCall) (wf : World FastifyCall)
  (err : JsError) (ke kf : Console) :
  Controller.handle c (express_httpRequest e) (console we) = (Throw err, ke) ->
  Controller.handle c (fastify_httpRequest f) (console wf) = (Throw err, kf) ->
  expressRouteAdapter c e we = (Throw err, {| console := ke; reply := reply we |})
  /\ fastifyRouteAdapter c f wf =
     (Throw err, {| console := kf; reply := reply wf |}).
Proof.
  intros He Hf. split.
  - apply express_on_throw, He.
  - apply fastify_on_throw, Hf.
Qed.

Lemma handler_propagates_throw_witness :
  expressRouteAdapter CommonController.new (express_request JNull ∅) fresh =
    (Throw (TypeError "Cannot read properties of null"),
     {| console := []; reply := [] |})
  /\ fastifyRouteAdapter CommonController.new (fastify_request JNull ∅) fresh =
    (Throw (TypeError "Cannot read properties of null"),
     {| console := []; reply := [] |}).
Proof.
  apply (handler_propagates_throw CommonController.new
           (express_request JNull ∅) (fastify_request JNull ∅) fresh fresh
           (TypeError "Cannot read properties of null") [] []).
  - reflexivity.
  - reflexivity.
Defined.

(** X2. A handler completes the reply exactly once: whatever the
    controller and the request, the calls already made on the reply
    object are kept, and the handler adds either one status call followed
    by one body call (when it returns) or nothing at all (when it
    throws). *)
Theorem handler_writes_once
  (c : Controller.t) (e : ExpressRequest.t) (f : FastifyRequest.t)
  (we : World ExpressCall) (wf : World FastifyCall) :
  (exists new,
     reply (snd (expressRouteAdapter c e we)) = (reply we ++ new)%list
     /\ match fst (expressRouteAdapter c e we) with
        | Ok _ => exists code payload, new = [res_status code; res_json payload]
        | Throw _ => new = []
        end)
  /\ (exists new,
     reply (snd (fastifyRouteAdapter c f wf)) = (reply wf ++ new)%list
     /\ match fst (fastifyRouteAdapter c f wf) with
        | Ok _ => exists code payload,
                    new = [reply_status code; reply_send payload]
        | Throw _ => new = []
        end).
Proof.
  split.
  - pose proof (express_outcome c e we) as H.
    destruct (Controller.handle c (express_httpRequest e) (console we))
      as [[resp | err] k'].
    + destruct H as [payload ->]. simpl. eauto.
    + rewrite H. simpl. exists []. rewrite app_nil_r. auto.
  - pose proof (fastify_outcome c f wf) as H.
    destruct (Controller.handle c (fastify_httpRequest f) (console wf))
      as [[resp | err] k'].
    + destruct H as [payload ->]. simpl. eauto.
    + rewrite H. simpl. exists []. rewrite app_nil_r. auto.
Qed.

(* ===================================================================== *)
(** ** The middleware and the routes *)
(* ===================================================================== *)

Lemma or_default_nonempty (o : option string) (d : string) :
  d <> "" -> or_default o d <> "".
Proof.
  intros Hd. destruct o as [s | ]; simpl; [ | exact Hd ].
  destruct (String.eqb_spec s ""); assumption.
Qed.

(** X7. After the middleware [userId] is always set, and never to the
    empty string, whatever the headers and whatever the field held
    before. *)
Theorem simpleMiddleware_userId_never_empty
  (e : ExpressRequest.t) (f : FastifyRequest.t) :
  (exists s, ExpressRequest.userId (expressApp.simpleMiddleware e) = Some s
             /\ s <> "")
  /\ (exists s, FastifyRequest.userId (fastifyApp.simpleMiddleware f) = Some s
                /\ s <> "").
Proof.
  split; eexists; (split; [ reflexivity | ]);
    apply or_default_nonempty; discriminate.
Qed.

(** Each route in one equation, by what the read of [body.name] gives:
    the middleware runs, the adapter assembles the request, the
    controller answers and the adapter writes. *)
Lemma express_route_by_name (e : ExpressRequest.t) (w : World ExpressCall) :
  expressApp.post_greet e w =
    match Get (ExpressRequest.body e) "name" with
    | Throw err => (Throw err, w)
    | Ok v =>
        if ToBoolean v then
          match ToString v with
          | Ok shown =>
              (Ok tt,
               {| console :=
                    (console w
                     ++ [express_httpRequest (expressApp.simpleMiddleware e)])%list;
                  reply :=
                    (reply w
                     ++ [res_status 200;
                         res_json
                           (JObj [("message",
                                   JStr ("Hello, " +:+ shown +:+ "!"))])])%list |})
          | Throw err =>
              (Throw err,
               {| console :=
                    (console w
                     ++ [express_httpRequest (expressApp.simpleMiddleware e)])%list;
                  reply := reply w |})
          end
        else
          (Ok tt,
           {| console := console w;
              reply :=
                (reply w
                 ++ [res_status 400;
                     res_json (JObj [("error", JStr "Name is required")])])%list |})
    end.
Proof.
  unfold expressApp.post_greet.
  pose proof (handle_by_name
                (express_httpRequest (expressApp.simpleMiddleware e))
                (console w)) as H.
  change (HttpRequest.body (express_httpRequest (expressApp.simpleMiddleware e)))
    with (ExpressRequest.body e) in H.
  destruct (Get (ExpressRequest.body e) "name") as [v | err].
  - destruct (ToBoolean v); [ destruct (ToString v) as [shown | err] | ].
    + apply (express_on_2xx CommonController.new _ w (greeting shown) _ H).
      unfold in_2xx. simpl. lia.
    + apply (express_on_throw CommonController.new _ w err _ H).
    + apply (express_on_other CommonController.new _ w name_required _ H).
      right. simpl. lia.
  - transitivity (@Throw unit err, {| console := console w; reply := reply w |}).
    + apply (express_on_throw CommonController.new _ w err _ H).
    + rewrite world_eta. reflexivity.
Qed.

Lemma fastify_route_by_name (f : FastifyRequest.t) (w : World FastifyCall) :
  fastifyApp.post_greet f w =
    match Get (FastifyRequest.body f) "name" with
    | Throw err => (Throw err, w)
    | Ok v =>
        if ToBoolean v then
          match ToString v with
          | Ok shown =>
              (Ok tt,
               {| console :=
                    (console w
                     ++ [fastify_httpRequest (fastifyApp.simpleMiddleware f)])%list;
                  reply :=
                    (reply w
                     ++ [reply_status 200;
                         reply_send
                           (JObj [("message",
                                   JStr ("Hello, " +:+ shown +:+ "!"))])])%list |})
          | Throw err =>
              (Throw err,
               {| console :=
                    (console w
                     ++ [fastify_httpRequest (fastifyApp.simpleMiddleware f)])%list;
                  reply := reply w |})
          end
        else
          (Ok tt,
           {| console := console w;
              reply :=
                (reply w
                 ++ [reply_status 400;
                     reply_send (JObj [("error", JStr "Name is required")])])%list |})
    end.
Proof.
  unfold fastifyApp.post_greet.
  pose proof (handle_by_name
                (fastify_httpRequest (fastifyApp.simpleMiddleware f))
                (console w)) as H.
  change (HttpRequest.body (fastify_httpRequest (fastifyApp.simpleMiddleware f)))
    with (FastifyRequest.body f) in H.
  destruct (Get (FastifyRequest.body f) "name") as [v | err].
  - destruct (ToBoolean v); [ destruct (ToString v) as [shown | err] | ].
    + apply (fastify_on_2xx CommonController.new _ w (greeting shown) _ H).
      unfold in_2xx. simpl. lia.
    + apply (fastify_on_throw CommonController.new _ w err _ H).
    + apply (fastify_on_other CommonController.new _ w name_required _ H).
      right. simpl. lia.
  - transitivity (@Throw unit err, {| console := console w; reply := reply w |}).
    + apply (fastify_on_throw CommonController.new _ w err _ H).
    + rewrite world_eta. reflexivity.
Qed.

Lemma Get_name_found (body : JsValue) (props : list (string * JsValue))
  (v : JsValue) :
  body = JObj props -> prop_lookup "name" props = Some v ->
  Get body "name" = Ok v.
Proof. intros -> H. simpl. rewrite H. reflexivity. Qed.

Lemma Get_name_missing (body : JsValue) (props : list (string * JsValue)) :
  body = JObj props ->
  (prop_lookup "name" props = None
   \/ exists v, prop_lookup "name" props = Some v /\ Falsy v) ->
  exists v, Get body "name" = Ok v /\ ToBoolean v = false.
Proof.
  intros -> [H | (v & H & F)]; simpl; rewrite H.
  - exists JUndefined. auto.
  - exists v. split; [ reflexivity | apply Falsy_ToBoolean, F ].
Qed.

(** X3. The wire contract of [POST /greet], success side, in both apps:
    a body that maps [name] to a non-empty string [S] is answered with
    status 200 and [{message: "Hello, S!"}], whatever the headers; the
    request logged is the one the middleware completed. *)
Theorem routes_greet
  (e : ExpressRequest.t) (f : FastifyRequest.t)
  (we : World ExpressCall) (wf : World FastifyCall)
  (props : list (string * JsValue)) (S : string) :
  ExpressRequest.body e = JObj props ->
  FastifyRequest.body f = JObj props ->
  prop_lookup "name" props = Some (JStr S) ->
  S <> "" ->
  expressApp.post_greet e we =
    (Ok tt,
     {| console :=
          (console we
           ++ [express_httpRequest (expressApp.simpleMiddleware e)])%list;
        reply :=
          (reply we
           ++ [res_status 200;
               res_json (JObj [("message",
                                JStr ("Hello, " +:+ S +:+ "!"))])])%list |})
  /\ fastifyApp.post_greet f wf =
    (Ok tt,
     {| console :=
          (console wf
           ++ [fastify_httpRequest (fastifyApp.simpleMiddleware f)])%list;
        reply :=
          (reply wf
           ++ [reply_status 200;
               reply_send (JObj [("message",
                                  JStr ("Hello, " +:+ S +:+ "!"))])])%list |}).
Proof.
  intros He Hf Hname Hne. split.
  - rewrite express_route_by_name, (Get_name_found _ _ _ He Hname),
      (nonempty_truthy S Hne). reflexivity.
  - rewrite fastify_route_by_name, (Get_name_found _ _ _ Hf Hname),
      (nonempty_truthy S Hne). reflexivity.
Qed.

Lemma routes_greet_witness :
  expressApp.post_greet
    (express_request (JObj [("name", JStr "Ada")]) {["userid" := HStr "u1"]})
    fresh =
    (Ok tt,
     {| console :=
          [{| HttpRequest.body := JObj [("name", JStr "Ada")];
              HttpRequest.params := ∅;
              HttpRequest.headers := {["userid" := HStr "u1"]};
              HttpRequest.userId := Some "u1";
              HttpRequest.workspaceId := None |}];
        reply := [res_status 200;
                  res_json (JObj [("message", JStr "Hello, Ada!")])] |})
  /\ fastifyApp.post_greet
    (fastify_request (JObj [("name", JStr "Ada")]) ∅) fresh =
    (Ok tt,
     {| console :=
          [{| HttpRequest.body := JObj [("name", JStr "Ada")];
              HttpRequest.params := ∅;
              HttpRequest.headers := ∅;
              HttpRequest.userId := Some "default";
              HttpRequest.workspaceId := None |}];
        reply := [reply_status 200;
                  reply_send (JObj [("message", JStr "Hello, Ada!")])] |}).
Proof.
  assert (Hne : "Ada" <> "") by discriminate.
  exact (routes_greet
           (express_request (JObj [("name", JStr "Ada")])
              {["userid" := HStr "u1"]})
           (fastify_request (JObj [("name", JStr "Ada")]) ∅)
           fresh fresh [("name", JStr "Ada")] "Ada"
           eq_refl eq_refl eq_refl Hne).
Defined.

(** X4. The wire contract of [POST /greet], failure side, in both apps:
    a mapping body in which [name] is absent or falsy is answered with
    status 400 and [{error: "Name is required"}] (the controller's
    [message] moved under [error]), and nothing is logged. *)
Theorem routes_reject
  (e : ExpressRequest.t) (f : FastifyRequest.t)
  (we : World ExpressCall) (wf : World FastifyCall)
  (props : list (string * JsValue)) :
  ExpressRequest.body e = JObj props ->
  FastifyRequest.body f = JObj props ->
  (prop_lookup "name" props = None
   \/ exists v, prop_lookup "name" props = Some v /\ Falsy v) ->
  expressApp.post_greet e we =
    (Ok tt,
     {| console := console we;
        reply :=
          (reply we
           ++ [res_status 400;
               res_json (JObj [("error", JStr "Name is required")])])%list |})
  /\ fastifyApp.post_greet f wf =
    (Ok tt,
     {| console := console wf;
        reply :=
          (reply wf
           ++ [reply_status 400;
               reply_send (JObj [("error", JStr "Name is required")])])%list |}).
Proof.
  intros He Hf Hname. split.
  - destruct (Get_name_missing _ _ He Hname) as (v & HG & HB).
    rewrite express_route_by_name, HG, HB. reflexivity.
  - destruct (Get_name_missing _ _ Hf Hname) as (v & HG & HB).
    rewrite fastify_route_by_name, HG, HB. reflexivity.
Qed.

Lemma routes_reject_witness :
  expressApp.post_greet (express_request (JObj [("name", JNum 0)]) ∅) fresh =
    (Ok tt,
     {| console := [];
        reply := [res_status 400;
                  res_json (JObj [("error", JStr "Name is required")])] |})
  /\ fastifyApp.post_greet (fastify_request (JObj [("name", JNum 0)]) ∅) fresh =
    (Ok tt,
     {| console := [];
        reply := [reply_status 400;
                  reply_send (JObj [("error", JStr "Name is required")])] |}).
Proof.
  apply (routes_reject
           (express_request (JObj [("name", JNum 0)]) ∅)
           (fastify_request (JObj [("name", JNum 0)]) ∅)
           fresh fresh [("name", JNum 0)]).
  - reflexivity.
  - reflexivity.
  - right. exists (JNum 0). split; [ reflexivity | constructor ].
Defined.


(** X12. A request without a usable body gets no reply from either
    route: when the body is [null] or [undefined] the route throws a
    [TypeError] and neither the reply object nor the console is
    touched. *)
Theorem routes_without_body
  (e : ExpressRequest.t) (f : FastifyRequest.t)
  (we : World ExpressCall) (wf : World FastifyCall) :
  nullish (ExpressRequest.body e) = true ->
  nullish (FastifyRequest.body f) = true ->
  (exists msg, expressApp.post_greet e we = (Throw (TypeError msg), we))
  /\ (exists msg, fastifyApp.post_greet f wf = (Throw (TypeError msg), wf)).
Proof.
  intros He Hf. split.
  - rewrite express_route_by_name.
    destruct (ExpressRequest.body e); try discriminate; simpl; eauto.
  - rewrite fastify_route_by_name.
    destruct (FastifyRequest.body f); try discriminate; simpl; eauto.
Qed.

Lemma routes_without_body_witness :
  (exists msg,
     expressApp.post_greet (express_request JUndefined ∅) fresh
     = (Throw (TypeError msg), fresh))
  /\ (exists msg,
     fastifyApp.post_greet (fastify_request JNull ∅) fresh
     = (Throw (TypeError msg), fresh)).
Proof.
  apply (routes_without_body (express_request JUndefined ∅)
           (fastify_request JNull ∅) fresh fresh).
  - reflexivity.
  - reflexivity.
Defined.

(** X13. What a route replies depends on the body alone: two requests
    with the same body, sent to the same route with the same reply
    object, end the same way and leave the same calls on the reply,
    whatever their headers, params and context fields are. *)
Theorem routes_reply_ignores_context
  (e1 e2 : ExpressRequest.t) (f1 f2 : FastifyRequest.t)
  (we1 we2 : World ExpressCall) (wf1 wf2 : World FastifyCall) :
  ExpressRequest.body e1 = ExpressRequest.body e2 ->
  FastifyRequest.body f1 = FastifyRequest.body f2 ->
  reply we1 = reply we2 ->
  reply wf1 = reply wf2 ->
  (fst (expressApp.post_greet e1 we1) = fst (expressApp.post_greet e2 we2)
   /\ reply (snd (expressApp.post_greet e1 we1))
      = reply (snd (expressApp.post_greet e2 we2)))
  /\ (fst (fastifyApp.post_greet f1 wf1) = fst (fastifyApp.post_greet f2 wf2)
   /\ reply (snd (fastifyApp.post_greet f1 wf1))
      = reply (snd (fastifyApp.post_greet f2 wf2))).
Proof.
  intros He Hf Hwe Hwf. split.
  - rewrite !express_route_by_name, He.
    destruct (Get (ExpressRequest.body e2) "name") as [v | err];
      [ | split; [ reflexivity | exact Hwe ] ].
    destruct (ToBoolean v); [ destruct (ToString v) | ];
      simpl; rewrite Hwe; auto.
  - rewrite !fastify_route_by_name, Hf.
    destruct (Get (FastifyRequest.body f2) "name") as [v | err];
      [ | split; [ reflexivity | exact Hwf ] ].
    destruct (ToBoolean v); [ destruct (ToString v) | ];
      simpl; rewrite Hwf; auto.
Qed.

Lemma routes_reply_ignores_context_witness :
  (fst (expressApp.post_greet
          (express_request (JObj [("name", JStr "Ada")])
             {["userid" := HStr "u1"]}) fresh)
   = fst (expressApp.post_greet
            (express_request (JObj [("name", JStr "Ada")]) ∅) fresh)
   /\ reply (snd (expressApp.post_greet
          (express_request (JObj [("name", JStr "Ada")])
             {["userid" := HStr "u1"]}) fresh))
      = reply (snd (expressApp.post_greet
            (express_request (JObj [("name", JStr "Ada")]) ∅) fresh)))
  /\ (fst (fastifyApp.post_greet
          (fastify_request (JObj []) {["workspaceid" := HStr "w1"]}) fresh)
   = fst (fastifyApp.post_greet (fastify_request (JObj []) ∅) fresh)
   /\ reply (snd (fastifyApp.post_greet
          (fastify_request (JObj []) {["workspaceid" := HStr "w1"]}) fresh))
      = reply (snd (fastifyApp.post_greet (fastify_request (JObj []) ∅) fresh))).
Proof.
  apply (routes_reply_ignores_context
           (express_request (JObj [("name", JStr "Ada")])
              {["userid" := HStr "u1"]})
           (express_request (JObj [("name", JStr "Ada")]) ∅)
           (fastify_request (JObj []) {["workspaceid" := HStr "w1"]})
           (fastify_request (JObj []) ∅)
           fresh fresh fresh fresh).
  - reflexivity.
  - reflexivity.
  - reflexivity.
  - reflexivity.
Defined.

Lemma routes_assemble_alike (e : ExpressRequest.t) (f : FastifyRequest.t) :
  ExpressRequest.body e = FastifyRequest.body f ->
  ExpressRequest.params e = FastifyRequest.params f ->
  ExpressRequest.headers e = FastifyRequest.headers f ->
  express_httpRequest (expressApp.simpleMiddleware e)
  = fastify_httpRequest (fastifyApp.simpleMiddleware f).
Proof.
  destruct e, f. simpl. intros -> -> ->. reflexivity.
Qed.

(** X6. The two apps are interchangeable end to end, and the context
    fields a raw request arrives with do not matter, since the
    middleware overwrites them: for the same body, params and headers
    the Express route and the Fastify route end the same way, log the
    same requests and write the same status and body. *)
Theorem routes_interchangeable
  (e : ExpressRequest.t) (f : FastifyRequest.t)
  (we : World ExpressCall) (wf : World FastifyCall) :
  ExpressRequest.body e = FastifyRequest.body f ->
  ExpressRequest.params e = FastifyRequest.params f ->
  ExpressRequest.headers e = FastifyRequest.headers f ->
  console we = console wf ->
  map express_written (reply we) = map fastify_written (reply wf) ->
  fst (expressApp.post_greet e we) = fst (fastifyApp.post_greet f wf)
  /\ console (snd (expressApp.post_greet e we))
     = console (snd (fastifyApp.post_greet f wf))
  /\ map express_written (reply (snd (expressApp.post_greet e we)))
     = map fastify_written (reply (snd (fastifyApp.post_greet f wf))).
Proof.
  intros Hb Hp Hh Hk Hr.
  rewrite express_route_by_name, fastify_route_by_name,
    (routes_assemble_alike e f Hb Hp Hh), Hb.
  destruct (Get (FastifyRequest.body f) "name") as [v | err]; [ | auto ].
  destruct (ToBoolean v); [ destruct (ToString v) | ];
    simpl; rewrite ?map_app, Hk, Hr; auto.
Qed.

Lemma routes_interchangeable_witness :
  fst (expressApp.post_greet
         {| ExpressRequest.body := JObj [("name", JStr "Ada")];
            ExpressRequest.params := ∅;
            ExpressRequest.headers := {["userid" := HStr "u1"]};
            ExpressRequest.userId := Some "stale";
            ExpressRequest.workspaceId := Some "stale" |} fresh)
  = fst (fastifyApp.post_greet
           (fastify_request (JObj [("name", JStr "Ada")])
              {["userid" := HStr "u1"]}) fresh)
  /\ console (snd (expressApp.post_greet
         {| ExpressRequest.body := JObj [("name", JStr "Ada")];
            ExpressRequest.params := ∅;
            ExpressRequest.headers := {["userid" := HStr "u1"]};
            ExpressRequest.userId := Some "stale";
            ExpressRequest.workspaceId := Some "stale" |} fresh))
     = console (snd (fastifyApp.post_greet
           (fastify_request (JObj [("name", JStr "Ada")])
              {["userid" := HStr "u1"]}) fresh))
  /\ map express_written (reply (snd (expressApp.post_greet
         {| ExpressRequest.body := JObj [("name", JStr "Ada")];
            ExpressRequest.params := ∅;
            ExpressRequest.headers := {["userid" := HStr "u1"]};
            ExpressRequest.userId := Some "stale";
            ExpressRequest.workspaceId := Some "stale" |} fresh)))
     = map fastify_written (reply (snd (fastifyApp.post_greet
           (fastify_request (JObj [("name", JStr "Ada")])
              {["userid" := HStr "u1"]}) fresh))).
Proof.
  apply (routes_interchangeable
           {| ExpressRequest.body := JObj [("name", JStr "Ada")];
              ExpressRequest.params := ∅;
              ExpressRequest.headers := {["userid" := HStr "u1"]};
              ExpressRequest.userId := Some "stale";
              ExpressRequest.workspaceId := Some "stale" |}
           (fastify_request (JObj [("name", JStr "Ada")])
              {["userid" := HStr "u1"]})
           fresh fresh).
  - reflexivity.
  - reflexivity.
  - reflexivity.
  - reflexivity.
  - reflexivity.
Defined.
